(** * Car Management API: request lifecycle and route handlers

    A shallow embedding of [src/expressDatabase.js] and of the handler
    listings documented in the project notes ([src/unnamed/part_000]).

    The program is an Express application: one connection middleware that
    runs in front of every route, and five routes.  Every piece of code is
    an [async] function that mutates the request, the response, the pool
    and (through SQL statements) the [car] table, and that may throw.  It is
    embedded as a computation in a state-and-exception monad [M] over a
    [world]; [try { .. } catch (err) { .. }] is [try_catch].

    The collaborators that are not part of the source (the MySQL engine,
    the mysql2 pool, Express and body-parser) are represented by
    - [execute], the meaning of the six SQL statements the source issues,
      over a table kept as the list of its rows in the order in which the
      engine scans them;
    - an [env] that says, for one request, which of the external calls
      reject and with which error, what a rejected statement has already
      written, and what the engine's clock and column default are;
    - [express_next] and [express_settle], the way Express runs a route
      behind a middleware: the [next] it hands to the middleware starts
      the route and returns at once, so [await next()] does not wait for
      an [async] route, whose remainder runs after the middleware's own
      function has finished;
    - [server], the answers that body-parser and Express give on their
      own to requests that reach no route. *)

From Stdlib Require Import ZArith DecimalString.
From stdpp Require Import base option list strings gmap.

Local Open Scope string_scope.
Local Open Scope list_scope.
Local Open Scope Z_scope.

Set Warnings "-register-all".

(** ** Values *)

(** A JavaScript value as it reaches the handlers: a parsed JSON value, or
    [undefined] for a property that the request body does not have. *)
Inductive value : Type :=
  | VUndefined
  | VNull
  | VBool (b : bool)
  | VNum (n : Z)
  | VStr (s : string)
  | VArr (items : list value)
  | VObj (props : list (string * value)).

(** A thrown [Error]; only its [message] is ever read. *)
Record js_error : Type := Error { message : string }.

(** ** The car table *)

(** One row of [car].  [date_created] is [None] when the row carries no
    creation timestamp (SQL NULL, or the column is not there). *)
Record car : Type := Car {
  car_id : Z;
  make : value;
  model : value;
  year : value;
  deleted_flag : Z;
  date_created : option Z
}.

(** The table in storage order, and the AUTO_INCREMENT counter of its
    primary key. *)
Record database : Type := Database {
  car_table : list car;
  auto_increment : Z
}.

(** The integer that a bound parameter denotes when the engine compares it
    with the integer column [id]: a number is itself, a string is read as
    a decimal numeral (path parameters always arrive as strings), and
    nothing else denotes an id. *)
Definition sql_int_of (v : value) : option Z :=
  match v with
  | VNum n => Some n
  | VStr s => option_map Z.of_int (NilEmpty.int_of_string s)
  | _ => None
  end.

(** [WHERE id = :p] on one row. *)
Definition id_matches (p : value) (c : car) : bool :=
  match sql_int_of p with
  | Some n => car_id c =? n
  | None => false
  end.

(** [WHERE deleted_flag = 0] on one row. *)
Definition is_active (c : car) : bool := deleted_flag c =? 0.

(** ** SQL statements issued by the source *)

Inductive statement : Type :=
  (** [SET SESSION sql_mode = "TRADITIONAL"] *)
  | SetSqlMode
  (** [SET time_zone = '-8:00'] *)
  | SetTimeZone
  (** [SELECT * FROM car WHERE deleted_flag = 0;] *)
  | SelectActive
  (** [INSERT INTO car (make, model, year, deleted_flag)
       VALUES (:make, :model, :year, 0);] *)
  | InsertCar (mk md yr : value)
  (** [INSERT INTO car (make, model, year, date_created, deleted_flag)
       VALUES (:make, :model, :year, NOW(), 0);] *)
  | InsertCarNow (mk md yr : value)
  (** [UPDATE car SET make = :make, model = :model, year = :year
       WHERE id = :id;] *)
  | UpdateCar (i mk md yr : value)
  (** [UPDATE car SET deleted_flag = 1 WHERE id = :carId] *)
  | SoftDelete (carId : value).

(** What [query] resolves to: the first component of mysql2's result pair,
    either the selected rows or the header of a write. *)
Inductive query_result : Type :=
  | Rows (rows : list car)
  | ResultSetHeader (insertId : Z) (affectedRows : nat).

Definition rows_of (r : query_result) : list car :=
  match r with Rows rows => rows | ResultSetHeader _ _ => [] end.

Definition insertId_of (r : query_result) : value :=
  match r with Rows _ => VUndefined | ResultSetHeader i _ => VNum i end.

Definition set_fields (mk md yr : value) (c : car) : car :=
  Car (car_id c) mk md yr (deleted_flag c) (date_created c).

Definition set_deleted (c : car) : car :=
  Car (car_id c) (make c) (model c) (year c) 1 (date_created c).

Definition update_where (p : car -> bool) (f : car -> car) (t : list car) : list car :=
  (fun c => if p c then f c else c) <$> t.

Definition affected (p : car -> bool) (t : list car) : nat :=
  length (filter (fun c => p c = true) t).

(** What a statement that the engine rejects has written all the same.
    The source opens no transaction, so nothing undoes it: an UPDATE may
    have rewritten the rows at some positions of the table before it was
    rejected, and an INSERT may have consumed a key. *)
Record residue : Type := Residue {
  rows_reached : nat -> bool;
  key_taken : bool
}.

Definition nothing_written : residue := Residue (fun _ => false) false.

(** What the engine is asked to assume for one request: which external
    calls reject, what a rejected route statement leaves behind, the
    value of [NOW()], and the value the table definition gives
    [date_created] when an INSERT does not name that column (the table
    definition is not part of the source). *)
Record env : Type := Env {
  getConnection_error : option js_error;
  sql_mode_error : option js_error;
  time_zone_error : option js_error;
  query_error : option js_error;
  now : Z;
  date_created_default : option Z;
  query_residue : residue
}.

(** An environment in which every external call succeeds. *)
Definition healthy (clock : Z) (dflt : option Z) : env :=
  Env None None None None clock dflt nothing_written.

Definition insert_row (mk md yr : value) (created : option Z) (d : database)
  : database * query_result :=
  let i := auto_increment d in
  (Database (car_table d ++ [Car i mk md yr 0 created]) (i + 1),
   ResultSetHeader i 1).

(** The effect of a statement that the engine accepts.  The rows of a
    SELECT come in the order of the table, which stands for the order in
    which the engine scans it (the query has no ORDER BY); the columns hold
    the values as the handler bound them. *)
Definition execute (e : env) (st : statement) (d : database) : database * query_result :=
  match st with
  | SetSqlMode | SetTimeZone => (d, ResultSetHeader 0 0)
  | SelectActive => (d, Rows (filter (fun c => is_active c = true) (car_table d)))
  | InsertCar mk md yr => insert_row mk md yr (date_created_default e) d
  | InsertCarNow mk md yr => insert_row mk md yr (Some (now e)) d
  | UpdateCar i mk md yr =>
      (Database (update_where (id_matches i) (set_fields mk md yr) (car_table d))
                (auto_increment d),
       ResultSetHeader 0 (affected (id_matches i) (car_table d)))
  | SoftDelete carId =>
      (Database (update_where (id_matches carId) set_deleted (car_table d))
                (auto_increment d),
       ResultSetHeader 0 (affected (id_matches carId) (car_table d)))
  end.

(** An UPDATE that was rejected after it had rewritten the rows at the
    positions [reached]. *)
Definition update_reached (reached : nat -> bool) (p : car -> bool)
    (f : car -> car) (t : list car) : list car :=
  imap (fun n c => if reached n && p c then f c else c) t.

(** The database that a rejected statement leaves behind.  The session
    statements and the SELECT write nothing; a rejected INSERT stores no
    row. *)
Definition left_behind (e : env) (st : statement) (d : database) : database :=
  let r := query_residue e in
  match st with
  | SetSqlMode | SetTimeZone | SelectActive => d
  | InsertCar _ _ _ | InsertCarNow _ _ _ =>
      if key_taken r then Database (car_table d) (auto_increment d + 1) else d
  | UpdateCar i mk md yr =>
      Database (update_reached (rows_reached r) (id_matches i)
                  (set_fields mk md yr) (car_table d))
               (auto_increment d)
  | SoftDelete carId =>
      Database (update_reached (rows_reached r) (id_matches carId)
                  set_deleted (car_table d))
               (auto_increment d)
  end.

(** The rejection, if any, that [env] schedules for a statement. *)
Definition rejection (e : env) (st : statement) : option js_error :=
  match st with
  | SetSqlMode => sql_mode_error e
  | SetTimeZone => time_zone_error e
  | _ => query_error e
  end.

(** ** The world of one request *)

(** The pool, reduced to what the middleware can change: how many
    connections are checked out, and how often [getConnection] succeeded
    and [release] was called. *)
Record pool : Type := Pool {
  in_use : nat;
  acquires : nat;
  releases : nat
}.

(** A pooled connection, identified by its acquisition number. *)
Definition connection : Type := nat.

(** The body of a JSON response: an object literal, whose properties are
    values or (for the listing) the selected rows. *)
Inductive jsonv : Type :=
  | JVal (v : value)
  | JRows (rows : list car).

Definition json : Type := list (string * jsonv).

Inductive payload : Type :=
  | Json (o : json)
  | Text (s : string).

Record response : Type := Response {
  status : Z;
  sent : payload
}.

(** One argument of a [console.log] / [console.error] call. *)
Inductive logarg : Type :=
  | LStr (s : string)
  | LErr (err : js_error)
  | LObj (o : json)
  | LUndefined.

Record world : Type := World {
  (** the MySQL database behind the pool *)
  mysql : database;
  (** [databasePool] *)
  databasePool : pool;
  (** [connection.config.namedPlaceholders] of the pooled connection *)
  namedPlaceholders : bool;
  (** everything written with [console.log] and [console.error] *)
  console : list (list logarg);
  (** [req.db] *)
  req_db : option connection;
  (** [res.statusCode] *)
  res_statusCode : Z;
  (** the responses written to [res], oldest first *)
  res_sent : list response;
  (** whether Express has been told, through [next()], to go on to the
      route *)
  dispatched : bool
}.

(** The world as a new request finds it: Express hands the middleware a
    fresh [req] (no [db] property) and a fresh [res] (status 200, nothing
    sent). *)
Definition incoming (w : world) : world :=
  World (mysql w) (databasePool w) (namedPlaceholders w) (console w) None 200 []
        false.

(** ** State and exceptions *)

Inductive completion (A : Type) : Type :=
  | Returned (a : A)
  | Thrown (err : js_error).
Arguments Returned {A} a.
Arguments Thrown {A} err.

Definition M (A : Type) : Type := world -> completion A * world.

Definition ret {A} (a : A) : M A := fun w => (Returned a, w).

Definition throw {A} (err : js_error) : M A := fun w => (Thrown err, w).

Definition bind {A B} (c : M A) (k : A -> M B) : M B :=
  fun w =>
    match c w with
    | (Returned a, w') => k a w'
    | (Thrown err, w') => (Thrown err, w')
    end.

Definition try_catch {A} (body : M A) (handler : js_error -> M A) : M A :=
  fun w =>
    match body w with
    | (Returned a, w') => (Returned a, w')
    | (Thrown err, w') => handler err w'
    end.

Declare Scope js_scope.
Delimit Scope js_scope with js.
Notation "x <- c ;; k" := (bind c (fun x => k))
  (at level 100, c at next level, k at level 200, right associativity) : js_scope.
Notation "c ;; k" := (bind c (fun _ => k))
  (at level 100, k at level 200, right associativity) : js_scope.
Local Open Scope js_scope.

Definition modify (f : world -> world) : M unit := fun w => (Returned tt, f w).

(** ** Primitive operations on [req], [res], the pool and the console *)

Definition set_mysql (d : database) (w : world) : world :=
  World d (databasePool w) (namedPlaceholders w) (console w)
        (req_db w) (res_statusCode w) (res_sent w) (dispatched w).

Definition set_pool (p : pool) (w : world) : world :=
  World (mysql w) p (namedPlaceholders w) (console w)
        (req_db w) (res_statusCode w) (res_sent w) (dispatched w).

Definition set_namedPlaceholders (b : bool) (w : world) : world :=
  World (mysql w) (databasePool w) b (console w)
        (req_db w) (res_statusCode w) (res_sent w) (dispatched w).

Definition set_req_db (c : connection) (w : world) : world :=
  World (mysql w) (databasePool w) (namedPlaceholders w) (console w)
        (Some c) (res_statusCode w) (res_sent w) (dispatched w).

Definition set_statusCode (s : Z) (w : world) : world :=
  World (mysql w) (databasePool w) (namedPlaceholders w) (console w)
        (req_db w) s (res_sent w) (dispatched w).

Definition push_log (l : list logarg) (w : world) : world :=
  World (mysql w) (databasePool w) (namedPlaceholders w) (console w ++ [l])
        (req_db w) (res_statusCode w) (res_sent w) (dispatched w).

Definition push_response (p : payload) (w : world) : world :=
  World (mysql w) (databasePool w) (namedPlaceholders w) (console w)
        (req_db w) (res_statusCode w)
        (res_sent w ++ [Response (res_statusCode w) p]) (dispatched w).

Definition set_dispatched (b : bool) (w : world) : world :=
  World (mysql w) (databasePool w) (namedPlaceholders w) (console w)
        (req_db w) (res_statusCode w) (res_sent w) b.

(** [console.log(..)] and [console.error(..)]. *)
Definition console_log (l : list logarg) : M unit := modify (push_log l).

(** [res.status(code)]. *)
Definition res_status (code : Z) : M unit := modify (set_statusCode code).

(** [res.json(o)]. *)
Definition res_json (o : json) : M unit := modify (push_response (Json o)).

(** [res.send(text)]. *)
Definition res_send (s : string) : M unit := modify (push_response (Text s)).

(** [await databasePool.getConnection()]. *)
Definition getConnection (e : env) : M connection :=
  fun w =>
    match getConnection_error e with
    | Some err => (Thrown err, w)
    | None =>
        let p := databasePool w in
        (Returned (acquires p),
         set_pool (Pool (S (in_use p)) (S (acquires p)) (releases p)) w)
    end.

(** The [TypeError] of a property access on [undefined]. *)
Definition undefined_property (name : string) : js_error :=
  Error (String.append "Cannot read properties of undefined (reading '"
                       (String.append name "')")).

(** [req.db.release()]. *)
Definition req_db_release : M unit :=
  fun w =>
    match req_db w with
    | None => (Thrown (undefined_property "release"), w)
    | Some _ =>
        let p := databasePool w in
        (Returned tt,
         set_pool (Pool (Nat.pred (in_use p)) (acquires p) (S (releases p))) w)
    end.

(** Statements written with [:name] placeholders. *)
Definition has_placeholders (st : statement) : bool :=
  match st with
  | InsertCar _ _ _ | InsertCarNow _ _ _ | UpdateCar _ _ _ _ | SoftDelete _ => true
  | _ => false
  end.

(** The engine's complaint about a [:name] that was sent unbound. *)
Definition unbound_placeholder : js_error :=
  Error "You have an error in your SQL syntax".

(** [await req.db.query(sql, params)]. *)
Definition req_db_query (e : env) (st : statement) : M query_result :=
  fun w =>
    match req_db w with
    | None => (Thrown (undefined_property "query"), w)
    | Some _ =>
        match rejection e st with
        | Some err => (Thrown err, set_mysql (left_behind e st (mysql w)) w)
        | None =>
            if has_placeholders st && negb (namedPlaceholders w)
            then (Thrown unbound_placeholder, w)
            else let (d, r) := execute e st (mysql w) in
                 (Returned r, set_mysql d w)
        end
    end.

(** [if (req.db) k]. *)
Definition if_req_db (k : M unit) : M unit :=
  fun w =>
    match req_db w with
    | Some _ => k w
    | None => (Returned tt, w)
    end.

(** ** Requests *)

(** [req.body] after [bodyParser.json()]: always an object, possibly
    empty. *)
Abbreviation body := (gmap string value).

(** [const { name } = req.body]: [undefined] when the property is absent. *)
Definition prop (b : body) (name : string) : value :=
  default VUndefined (b !! name).

(** A request that reaches one of the routes the application registers,
    with what the route reads from it: the body as [bodyParser.json()]
    parsed it, the [:id] as Express decoded it.  What the server answers to
    the other requests is [server], below. *)
Inductive request : Type :=
  | GET_root
  | GET_car
  | POST_car (b : body)
  | PUT_car (b : body)
  | DELETE_car (id : string).

(** The object literal [{ error: text, details: err.message }]. *)
Definition error_body (text : string) (err : js_error) : json :=
  [("error", JVal (VStr text)); ("details", JVal (VStr (message err)))].

(** ** src/expressDatabase.js *)

Module ExpressDatabase.

(** [app.use(async function (req, res, next) { .. })], lines 30-46.
    [next] is the function that Express passes in; [await next()] is the
    call of it, followed by the next statement.  What Express passes is
    [express_next], below. *)
Definition middleware (e : env) (next : M unit) : M unit :=
  try_catch
    (c <- getConnection e ;;
     modify (set_req_db c) ;;
     modify (set_namedPlaceholders true) ;;
     req_db_query e SetSqlMode ;;
     req_db_query e SetTimeZone ;;
     next ;;
     req_db_release)
    (fun err =>
       console_log [LStr "Database connection error:"; LErr err] ;;
       if_req_db req_db_release ;;
       res_status 500 ;;
       res_json (error_body
         "Internal Server Error: Unable to connect to cars database" err)).

(** [app.get('/', ..)], lines 49-51. *)
Definition get_root : M unit :=
  res_send "Welcome to the Car Management API!".

(** [app.get("/car", ..)], lines 57-65. *)
Definition get_car (e : env) : M unit :=
  try_catch
    (cars <- req_db_query e SelectActive ;;
     res_json [("cars", JRows (rows_of cars))])
    (fun err =>
       console_log [LStr "Error in GET request to /car:"; LErr err] ;;
       res_status 500 ;;
       res_json (error_body
         "Internal Server Error: Failed to retrieve car data" err)).

(** [app.post("/car", ..)], lines 68-81. *)
Definition post_car (e : env) (b : body) : M unit :=
  let make := prop b "make" in
  let model := prop b "model" in
  let year := prop b "year" in
  try_catch
    (result <- req_db_query e (InsertCar make model year) ;;
     res_json [("id", JVal (insertId_of result)); ("make", JVal make);
               ("model", JVal model); ("year", JVal year);
               ("success", JVal (VBool true))])
    (fun err =>
       console_log [LStr "Error in POST request to /car:"; LErr err] ;;
       res_status 500 ;;
       res_json (error_body
         "Internal Server Error: Failed to create car" err)).

(** [app.put("/car", ..)], lines 84-97. *)
Definition put_car (e : env) (b : body) : M unit :=
  let id := prop b "id" in
  let make := prop b "make" in
  let model := prop b "model" in
  let year := prop b "year" in
  try_catch
    (req_db_query e (UpdateCar id make model year) ;;
     console_log [LStr "Car updated successfully:";
                  LObj [("id", JVal id); ("make", JVal make);
                        ("model", JVal model); ("year", JVal year)]] ;;
     res_json [("id", JVal id); ("make", JVal make);
               ("model", JVal model); ("year", JVal year);
               ("success", JVal (VBool true))])
    (fun err =>
       console_log [LStr "Error in PUT request to /car:"; LErr err] ;;
       res_status 500 ;;
       res_json (error_body
         "Internal Server Error: Failed to update car" err)).

(** [app.delete("/car/:id", ..)], lines 100-110. *)
Definition delete_car (e : env) (id : string) : M unit :=
  console_log
    [LStr (String.append "Received DELETE request for car with ID: " id)] ;;
  let carId := VStr id in
  try_catch
    (req_db_query e (SoftDelete carId) ;;
     res_json [("success", JVal (VBool true))])
    (fun err =>
       console_log [LStr "Error in DELETE request to /car/:id:"; LErr err] ;;
       res_status 500 ;;
       res_json (error_body
         "Internal Server Error: Failed to delete car" err)).

(** The route table. *)
Definition route (e : env) (rq : request) : M unit :=
  match rq with
  | GET_root => get_root
  | GET_car => get_car e
  | POST_car b => post_car e b
  | PUT_car b => put_car e b
  | DELETE_car id => delete_car e id
  end.

(** [delete_car] from its [await] on, lines 103-109: the soft delete is
    the one route that does something (line 101) before it awaits. *)
Definition delete_car_awaited (e : env) (id : string) : M unit :=
  let carId := VStr id in
  try_catch
    (req_db_query e (SoftDelete carId) ;;
     res_json [("success", JVal (VBool true))])
    (fun err =>
       console_log [LStr "Error in DELETE request to /car/:id:"; LErr err] ;;
       res_status 500 ;;
       res_json (error_body
         "Internal Server Error: Failed to delete car" err)).

End ExpressDatabase.

(** ** The listings of the project notes (src/unnamed/part_000) *)

Module Notes.

(** Section C, lines 81-97.  [databasePool.name] is not a property of a
    mysql2 pool and reads as [undefined].  [next] is as in the program. *)
Definition middleware (e : env) (next : M unit) : M unit :=
  try_catch
    (c <- getConnection e ;;
     modify (set_req_db c) ;;
     modify (set_namedPlaceholders true) ;;
     req_db_query e SetSqlMode ;;
     req_db_query e SetTimeZone ;;
     next ;;
     req_db_release)
    (fun err =>
       console_log [LStr "Middleware connecting to database (pool:";
                    LUndefined; LStr ")"] ;;
       if_req_db req_db_release ;;
       res_status 500 ;;
       res_json (error_body
         "Internal Server Error: Unable to connect to car database" err)).

(** Section D.1, lines 132-140. *)
Definition get_car (e : env) : M unit :=
  try_catch
    (car <- req_db_query e SelectActive ;;
     res_json [("car", JRows (rows_of car))])
    (fun err =>
       console_log [LStr "Error in GET request to /car:"; LErr err] ;;
       res_status 500 ;;
       res_json (error_body
         "Internal Server Error: Failed to retrieve car data" err)).

(** Section D.2, lines 171-185. *)
Definition post_car (e : env) (b : body) : M unit :=
  let make := prop b "make" in
  let model := prop b "model" in
  let year := prop b "year" in
  try_catch
    (result <- req_db_query e (InsertCarNow make model year) ;;
     res_json [("id", JVal (insertId_of result)); ("make", JVal make);
               ("model", JVal model); ("year", JVal year);
               ("message", JVal (VStr "Car successfully created"));
               ("success", JVal (VBool true))])
    (fun err =>
       console_log [LStr "Error in POST request to /car:"; LErr err] ;;
       res_status 500 ;;
       res_json (error_body
         "Internal Server Error: Failed to create car" err)).

(** Section D.3, lines 215-228. *)
Definition put_car (e : env) (b : body) : M unit :=
  let id := prop b "id" in
  let make := prop b "make" in
  let model := prop b "model" in
  let year := prop b "year" in
  try_catch
    (req_db_query e (UpdateCar id make model year) ;;
     res_json [("id", JVal id); ("make", JVal make);
               ("model", JVal model); ("year", JVal year);
               ("success", JVal (VBool true))])
    (fun err =>
       console_log [LStr "Error in PUT request to /car:"; LErr err] ;;
       res_status 500 ;;
       res_json (error_body
         "Internal Server Error: Failed to update car" err)).

(** Section D.4, lines 257-267. *)
Definition delete_car (e : env) (id : string) : M unit :=
  let carId := VStr id in
  try_catch
    (req_db_query e (SoftDelete carId) ;;
     res_json [("success", JVal (VBool true))])
    (fun err =>
       console_log [LStr "Error in DELETE request to /car/:id:"; LErr err] ;;
       res_status 500 ;;
       res_json (error_body
         "Internal Server Error: Failed to delete car" err)).

(** The notes list no root route; the one of the program is kept. *)
Definition route (e : env) (rq : request) : M unit :=
  match rq with
  | GET_root => ExpressDatabase.get_root
  | GET_car => get_car e
  | POST_car b => post_car e b
  | PUT_car b => put_car e b
  | DELETE_car id => delete_car e id
  end.

End Notes.

(** ** The application, in either variant *)

Inductive variant : Type :=
  | expressDatabase_js
  | part_000.

Definition middleware (v : variant) : env -> M unit -> M unit :=
  match v with
  | expressDatabase_js => ExpressDatabase.middleware
  | part_000 => Notes.middleware
  end.

Definition route (v : variant) : env -> request -> M unit :=
  match v with
  | expressDatabase_js => ExpressDatabase.route
  | part_000 => Notes.route
  end.

(** *** A route behind the middleware, as Express runs it *)

(** What a route does before its first [await], that is, while the call
    that started it has not returned: the welcome route is an ordinary
    function and runs whole; the program's soft delete writes its console
    line; the other routes only read the request. *)
Definition begins (v : variant) (rq : request) : M unit :=
  match rq with
  | GET_root => ExpressDatabase.get_root
  | DELETE_car id =>
      match v with
      | expressDatabase_js =>
          console_log
            [LStr (String.append "Received DELETE request for car with ID: " id)]
      | part_000 => ret tt
      end
  | _ => ret tt
  end.

(** What is left of the route from its first [await] on: the query and
    the answer, inside the route's own [try]. *)
Definition continues (v : variant) (e : env) (rq : request) : M unit :=
  match rq with
  | GET_root => ret tt
  | DELETE_car id =>
      match v with
      | expressDatabase_js => ExpressDatabase.delete_car_awaited e id
      | part_000 => Notes.delete_car e id
      end
  | _ => route v e rq
  end.

(** Express's own answer to a request that no handler answers: a status
    and a page, reduced here to its title. *)
Definition finalhandler (code : Z) (title : string) : M unit :=
  res_status code ;; res_send title.

(** The [next] that Express hands to a middleware.  Calling it starts the
    next layer, up to its first [await], and returns [undefined]; what
    that layer throws on the way is caught by Express and answered with
    its error page, never thrown to the caller. *)
Definition express_next (start : M unit) : M unit :=
  fun w =>
    match start w with
    | (Returned _, w') => (Returned tt, set_dispatched true w')
    | (Thrown _, w') => finalhandler 500 "Internal Server Error" w'
    end.

(** After the middleware's function has finished, the route that [next()]
    started runs on from its [await]; should it fail outside its own
    [try], the failure goes to Express's error page (as Express 5 does
    with the rejected promise of a handler; Express 4 leaves the request
    unanswered). *)
Definition express_settle (rest : M unit) : M unit :=
  fun w =>
    if dispatched w
    then try_catch rest (fun _ => finalhandler 500 "Internal Server Error") w
    else (Returned tt, w).

(** One routed request, from its arrival to the end of its route: the
    middleware with Express's [next], then the remainder of the route. *)
Definition app (v : variant) (e : env) (rq : request) (w : world) : completion unit * world :=
  (middleware v e (express_next (begins v rq)) ;;
   express_settle (continues v e rq)) (incoming w).

(** *** Requests that reach no route *)



(** The state a request leaves behind, and what the client received. *)
Definition serve (v : variant) (e : env) (rq : request) (w : world) : world :=
  snd (app v e rq w).

Definition table_after (v : variant) (e : env) (rq : request) (w : world) : list car :=
  car_table (mysql (serve v e rq w)).

Definition responses (v : variant) (e : env) (rq : request) (w : world) : list response :=
  res_sent (serve v e rq w).

(** * Notions used in the statements *)

(** A next stage that leaves the pool and [req.db] alone, as each of the
    five routes does. *)
Definition pool_neutral (next : M unit) : Prop :=
  forall w,
    databasePool (snd (next w)) = databasePool w /\
    req_db (snd (next w)) = req_db w.

(** The [error] text of the middleware's own response. *)
Definition connect_text (v : variant) : string :=
  match v with
  | expressDatabase_js => "Internal Server Error: Unable to connect to cars database"
  | part_000 => "Internal Server Error: Unable to connect to car database"
  end.

(** Whether a route issues a query of its own. *)
Definition queries (rq : request) : bool :=
  match rq with GET_root => false | _ => true end.

(** The first external call of a request that rejects, if any: the
    acquisition, then the two session statements, then the route's query. *)
Definition failure_cause (e : env) (rq : request) : option js_error :=
  match getConnection_error e, sql_mode_error e, time_zone_error e with
  | Some err, _, _ => Some err
  | None, Some err, _ => Some err
  | None, None, Some err => Some err
  | None, None, None => if queries rq then query_error e else None
  end.

(** A server at rest, for the examples: an empty table whose next key is
    1, and an idle pool. *)
Definition idle : world :=
  World (Database [] 1) (Pool 0 0 0) false [] None 200 [] false.

(** A next stage that throws outside any [try]. *)
Definition boom : M unit := throw (Error "boom").

(** The pool after a request that acquired and released a connection. *)
Definition cycled (p : pool) : pool :=
  Pool (in_use p) (S (acquires p)) (S (releases p)).

(** The world a request leaves when all went well: the table and the
    console as given, the pool cycled once, one response with status 200. *)
Definition answered (d : database) (logs : list (list logarg)) (o : payload)
    (w : world) : world :=
  World d (cycled (databasePool w)) true (console w ++ logs)
        (Some (acquires (databasePool w))) 200 [Response 200 o] true.

(** The creation timestamp that a variant's INSERT leaves in the row. *)
Definition created (v : variant) (clock : Z) (dflt : option Z) : option Z :=
  match v with
  | expressDatabase_js => dflt
  | part_000 => Some clock
  end.

(** The property under which a variant returns the listing. *)
Definition listing_key (v : variant) : string :=
  match v with
  | expressDatabase_js => "cars"
  | part_000 => "car"
  end.

(** The success body of a variant's create handler. *)
Definition post_success (v : variant) (i : Z) (mk md yr : value) : json :=
  match v with
  | expressDatabase_js =>
      [("id", JVal (VNum i)); ("make", JVal mk); ("model", JVal md);
       ("year", JVal yr); ("success", JVal (VBool true))]
  | part_000 =>
      [("id", JVal (VNum i)); ("make", JVal mk); ("model", JVal md);
       ("year", JVal yr); ("message", JVal (VStr "Car successfully created"));
       ("success", JVal (VBool true))]
  end.

(** The success body of the update handler. *)
Definition put_success (b : body) : json :=
  [("id", JVal (prop b "id")); ("make", JVal (prop b "make"));
   ("model", JVal (prop b "model")); ("year", JVal (prop b "year"));
   ("success", JVal (VBool true))].

(** The extra console lines of src/expressDatabase.js on the success path. *)
Definition put_log (v : variant) (b : body) : list (list logarg) :=
  match v with
  | expressDatabase_js =>
      [[LStr "Car updated successfully:";
        LObj [("id", JVal (prop b "id")); ("make", JVal (prop b "make"));
              ("model", JVal (prop b "model")); ("year", JVal (prop b "year"))]]]
  | part_000 => []
  end.

(** The console line of src/expressDatabase.js on entering the soft delete. *)
Definition delete_log (v : variant) (id : string) : list (list logarg) :=
  match v with
  | expressDatabase_js =>
      [[LStr (String.append "Received DELETE request for car with ID: " id)]]
  | part_000 => []
  end.

(** Requests served one after the other. *)
Definition serve_all (v : variant) (e : env) (rqs : list request) (w : world) : world :=
  foldl (fun w rq => serve v e rq w) w rqs.

(** A table with one active car, for the examples. *)
Definition taurus : car := Car 1 (VStr "Ford") (VStr "Taurus") (VNum 2024) 0 None.

(** A server at rest whose table holds that car. *)
Definition one_car : world :=
  World (Database [taurus] 2) (Pool 0 0 0) false [] None 200 [] false.

(** A create request. *)
Definition ford : body :=
  {[ "make" := VStr "Ford"; "model" := VStr "Taurus"; "year" := VNum 2024 ]}.

(** The create handler as the specification words it: one new row with
    the three values of the body, [deleted_flag = 0] and the time of the
    insertion as creation timestamp, answered with
    [{ id, make, model, year, success: true }] for the generated id. *)
Definition post_car_as_specified
    (v : variant) (clock : Z) (dflt : option Z) (b : body) (w : world) : Prop :=
  exists i,
    table_after v (healthy clock dflt) (POST_car b) w
    = car_table (mysql w) ++
      [Car i (prop b "make") (prop b "model") (prop b "year") 0 (Some clock)] /\
    responses v (healthy clock dflt) (POST_car b) w
    = [Response 200
         (Json [("id", JVal (VNum i)); ("make", JVal (prop b "make"));
                ("model", JVal (prop b "model")); ("year", JVal (prop b "year"));
                ("success", JVal (VBool true))])].

(** An update request for the car with id 1. *)
Definition civic : body :=
  {[ "id" := VNum 1; "make" := VStr "Honda"; "model" := VStr "Civic";
     "year" := VNum 2020 ]}.

(** Two runs have the same effects: same completion, same database, same
    pool and request state, same status codes sent.  The console is left
    out; the variants log differently. *)
Definition same_effects (o1 o2 : completion unit * world) : Prop :=
  fst o1 = fst o2 /\
  mysql (snd o1) = mysql (snd o2) /\
  databasePool (snd o1) = databasePool (snd o2) /\
  namedPlaceholders (snd o1) = namedPlaceholders (snd o2) /\
  req_db (snd o1) = req_db (snd o2) /\
  res_statusCode (snd o1) = res_statusCode (snd o2) /\
  status <$> res_sent (snd o1) = status <$> res_sent (snd o2).

(** Two runs that, moreover, send the same responses. *)
Definition same_answers (o1 o2 : completion unit * world) : Prop :=
  same_effects o1 o2 /\ res_sent (snd o1) = res_sent (snd o2).

(** The body [ford] with a [deleted_flag] property added by the client. *)
Definition ford_deleted : body := <["deleted_flag" := VNum 1]> ford.

(** Requests served one after the other, each under its own
    environment. *)
Definition serve_each (v : variant) (l : list (env * request)) (w : world) : world :=
  foldl (fun w er => serve v (fst er) (snd er) w) w l.

(** The first rejection, if any, among the calls the middleware makes
    before it hands over to the route. *)
Definition connect_failure (e : env) : option js_error :=
  match getConnection_error e, sql_mode_error e, time_zone_error e with
  | Some err, _, _ => Some err
  | None, Some err, _ => Some err
  | None, None, Some err => Some err
  | None, None, None => None
  end.

(** A table whose primary keys are pairwise distinct and all below the
    AUTO_INCREMENT counter. *)
Definition well_keyed (d : database) : Prop :=
  NoDup (car_id <$> car_table d) /\
  Forall (fun c => car_id c < auto_increment d) (car_table d).

(** An environment whose pool cannot supply a connection. *)
Definition no_pool : env :=
  Env (Some (Error "Too many connections")) None None None 0 None nothing_written.

(** The body [civic] with a [deleted_flag] property added by the client. *)
Definition civic_flagged : body := <["deleted_flag" := VNum 1]> civic.

(** A soft-deleted car, and a server at rest whose table holds it. *)
Definition scrapped : car := Car 1 (VStr "Ford") (VStr "Pinto") (VNum 1971) 1 None.

Definition one_scrapped : world :=
  World (Database [scrapped] 2) (Pool 0 0 0) false [] None 200 [] false.


(** * Properties *)

(** ** Statement-level facts about the table *)

Section Table.

Implicit Types (t : list car) (c : car) (p : value).

Lemma set_fields_id mk md yr c : car_id (set_fields mk md yr c) = car_id c.
Proof. reflexivity. Qed.

Lemma set_deleted_id c : car_id (set_deleted c) = car_id c.
Proof. reflexivity. Qed.

Lemma id_matches_set_deleted p c :
  id_matches p (set_deleted c) = id_matches p c.
Proof. reflexivity. Qed.

Lemma update_where_length q f t : length (update_where q f t) = length t.
Proof. apply length_fmap. Qed.

Lemma update_where_lookup q f t (n : nat) :
  update_where q f t !! n = (fun c => if q c then f c else c) <$> t !! n.
Proof. apply list_lookup_fmap. Qed.

(** An UPDATE whose WHERE clause selects no row changes nothing. *)
Lemma update_where_none q f t :
  (forall c, c ∈ t -> q c = false) -> update_where q f t = t.
Proof.
  intros Hq. unfold update_where. rewrite <- (list_fmap_id t) at 2.
  apply list_fmap_ext. intros n c Hc. cbn.
  rewrite (Hq c); [reflexivity|]. by apply list_elem_of_lookup_2 with n.
Qed.

Lemma affected_none q t :
  (forall c, c ∈ t -> q c = false) -> affected q t = 0%nat.
Proof.
  unfold affected. induction t as [|c t IH]; intros Hq; [reflexivity|].
  rewrite filter_cons, (Hq c) by apply list_elem_of_here.
  destruct (decide (false = true)) as [?|_]; [discriminate|].
  apply IH. intros c' Hc'. apply Hq. by apply list_elem_of_further.
Qed.

(** An UPDATE keeps the primary keys, in storage order. *)
Lemma update_where_ids q f t :
  (forall c, car_id (f c) = car_id c) ->
  car_id <$> update_where q f t = car_id <$> t.
Proof.
  intros Hf. unfold update_where. rewrite <- list_fmap_compose.
  apply list_fmap_ext. intros _ c _. cbn. destruct (q c); [apply Hf | reflexivity].
Qed.

(** The soft delete is idempotent on the table. *)
Lemma soft_delete_twice p t :
  update_where (id_matches p) set_deleted
    (update_where (id_matches p) set_deleted t)
  = update_where (id_matches p) set_deleted t.
Proof.
  unfold update_where. rewrite <- list_fmap_compose.
  apply list_fmap_ext. intros _ c _. cbn.
  destruct (id_matches p c) eqn:E.
  - by rewrite id_matches_set_deleted, E.
  - by rewrite E.
Qed.

Lemma elem_of_select_active c t :
  c ∈ filter (fun c => is_active c = true) t <-> c ∈ t /\ deleted_flag c = 0.
Proof.
  rewrite list_elem_of_filter. unfold is_active. rewrite Z.eqb_eq. tauto.
Qed.

(** *** Rejected updates *)

Lemma update_reached_length r q f t :
  length (update_reached r q f t) = length t.
Proof. apply length_imap. Qed.

Lemma update_reached_lookup r q f t (n : nat) :
  update_reached r q f t !! n
  = (fun c => if r n && q c then f c else c) <$> t !! n.
Proof. apply list_lookup_imap. Qed.

(** An accepted UPDATE is one that reached every position, and an UPDATE
    that reached none has written nothing. *)
Lemma update_where_everywhere q f t :
  update_where q f t = update_reached (fun _ => true) q f t.
Proof.
  unfold update_where, update_reached. symmetry.
  exact (imap_const (fun c => if q c then f c else c) t).
Qed.

Lemma update_reached_nowhere q f t :
  update_reached (fun _ => false) q f t = t.
Proof.
  unfold update_reached.
  rewrite <- (list_fmap_id t) at 2. exact (imap_const (fun c => c) t).
Qed.

(** Also a rejected UPDATE keeps the primary keys, in storage order. *)
Lemma update_reached_ids r q f t :
  (forall c, car_id (f c) = car_id c) ->
  car_id <$> update_reached r q f t = car_id <$> t.
Proof.
  intros Hf. apply list_eq. intros n.
  rewrite !list_lookup_fmap, update_reached_lookup.
  destruct (t !! n) as [c|]; [|reflexivity]. cbn.
  destruct (r n && q c); [by rewrite Hf | reflexivity].
Qed.

(** Running into the same rejection twice writes what the first time
    wrote, when the rewrite is idempotent and keeps what WHERE tests. *)
Lemma update_reached_twice r q f t :
  (forall c, q (f c) = q c) ->
  (forall c, f (f c) = f c) ->
  update_reached r q f (update_reached r q f t) = update_reached r q f t.
Proof.
  intros Hq Hf. apply list_eq. intros n.
  rewrite !update_reached_lookup.
  destruct (t !! n) as [c|]; [|reflexivity]. cbn. f_equal.
  destruct (r n && q c) eqn:E; [|by rewrite E].
  rewrite Hq. destruct (r n && q c); [apply Hf | reflexivity].
Qed.

End Table.

(** ** Running the middleware and the routes *)

Ltac run_middleware :=
  cbv [middleware ExpressDatabase.middleware Notes.middleware
       express_next express_settle finalhandler ret
       try_catch bind getConnection req_db_query req_db_release if_req_db
       modify console_log res_status res_json res_send rejection
       has_placeholders execute left_behind incoming];
  cbn.


(** ** The routes *)

Arguments prop : simpl never.
Arguments update_where : simpl never.
Arguments update_reached : simpl never.
Arguments affected : simpl never.
Arguments String.append : simpl never.

Ltac run_route :=
  cbv [route ExpressDatabase.route Notes.route
       ExpressDatabase.get_root ExpressDatabase.get_car ExpressDatabase.post_car
       ExpressDatabase.put_car ExpressDatabase.delete_car
       ExpressDatabase.delete_car_awaited
       Notes.get_car Notes.post_car Notes.put_car Notes.delete_car
       try_catch bind req_db_query modify console_log res_status res_json
       res_send rejection has_placeholders execute left_behind insert_row];
  cbn.

(** No route touches the pool or [req.db]. *)
Lemma route_pool_neutral (v : variant) (e : env) (rq : request) :
  pool_neutral (route v e rq).
Proof.
  intros w. destruct v, rq; run_route;
    destruct (req_db w) eqn:Hd; cbn; try (split; [reflexivity | congruence]);
    destruct (query_error e); cbn; try (split; [reflexivity | congruence]);
    destruct (namedPlaceholders w); cbn; split; (reflexivity || congruence).
Qed.

(** Behind the middleware a route never throws: each one catches the
    rejection of its own query. *)
Lemma route_returns (v : variant) (e : env) (rq : request) (w : world) :
  is_Some (req_db w) -> fst (route v e rq w) = Returned tt.
Proof.
  intros [c Hc]. destruct v, rq; run_route; rewrite ?Hc; cbn; try reflexivity;
    destruct (query_error e); cbn; try reflexivity;
    destruct (namedPlaceholders w); cbn; reflexivity.
Qed.

Ltac run_app :=
  cbv [app serve responses table_after begins continues];
  run_middleware; run_route.

(** ** C1: when the connection is released *)

(** A route is what it does before its first [await] followed by what it
    does from there on. *)
Lemma route_in_two_steps (v : variant) (e : env) (rq : request) (w : world) :
  route v e rq w = (begins v rq ;; continues v e rq) w.
Proof. destruct v, rq; reflexivity. Qed.

(** C1.  The code at the input the claim fails on: a request to any
    route, every external call succeeding.  When the middleware's
    function has returned, one connection has been acquired and already
    released (the pool is back to its count), while the database is
    still untouched: the whole request is the route's remainder run from
    that state, so the route's query goes to a connection that is no
    longer checked out, and nothing is released after it.  A route that
    failed outside its own [try] would be answered by Express's error
    page: the middleware's [catch] is not reached, writes no console line
    and sends no [{error, details}]. *)
Theorem release_precedes_the_route
    (v : variant) (clock : Z) (dflt : option Z) (rq : request) (w : world) :
  let e := healthy clock dflt in
  let returned := middleware v e (express_next (begins v rq)) (incoming w) in
  let failing := (middleware v e (express_next (ret tt)) ;; express_settle boom)
                   (incoming w) in
  fst returned = Returned tt /\
  dispatched (snd returned) = true /\
  databasePool (snd returned) = cycled (databasePool w) /\
  mysql (snd returned) = mysql w /\
  app v e rq w = express_settle (continues v e rq) (snd returned) /\
  databasePool (serve v e rq w) = databasePool (snd returned) /\
  res_sent (snd failing) = [Response 500 (Text "Internal Server Error")] /\
  console (snd failing) = console w /\
  databasePool (snd failing) = cycled (databasePool w).
Proof.
  cbv zeta. destruct v, rq; run_app; repeat split; reflexivity.
Qed.

(** ** C5: the statuses the server sends *)



(** ** What each route does when every external call succeeds *)

Section Healthy.

Variables (v : variant) (clock : Z) (dflt : option Z) (w : world).

Let e := healthy clock dflt.
Let d := mysql w.

Lemma serve_get_root :
  serve v e GET_root w
  = answered d [] (Text "Welcome to the Car Management API!") w.
Proof.
  destruct v; run_app; unfold answered; by rewrite app_nil_r.
Qed.

Lemma serve_get_car :
  serve v e GET_car w
  = answered d []
      (Json [(listing_key v,
              JRows (filter (fun c => is_active c = true) (car_table d)))]) w.
Proof.
  destruct v; run_app; unfold answered; by rewrite app_nil_r.
Qed.

Lemma serve_post_car b :
  serve v e (POST_car b) w
  = answered
      (Database
         (car_table d ++
          [Car (auto_increment d) (prop b "make") (prop b "model")
               (prop b "year") 0 (created v clock dflt)])
         (auto_increment d + 1)) []
      (Json (post_success v (auto_increment d)
               (prop b "make") (prop b "model") (prop b "year"))) w.
Proof.
  destruct v; run_app; unfold answered; by rewrite app_nil_r.
Qed.

Lemma serve_put_car b :
  serve v e (PUT_car b) w
  = answered
      (Database
         (update_where (id_matches (prop b "id"))
            (set_fields (prop b "make") (prop b "model") (prop b "year"))
            (car_table d))
         (auto_increment d))
      (put_log v b) (Json (put_success b)) w.
Proof.
  destruct v; run_app; unfold answered; by rewrite ?app_nil_r.
Qed.

Lemma serve_delete_car id :
  serve v e (DELETE_car id) w
  = answered
      (Database
         (update_where (id_matches (VStr id)) set_deleted (car_table d))
         (auto_increment d))
      (delete_log v id) (Json [("success", JVal (VBool true))]) w.
Proof.
  destruct v; run_app; unfold answered; by rewrite ?app_nil_r.
Qed.

End Healthy.

(** A run of creates appends one active row per create and touches no
    other row. *)
Lemma creates_append (v : variant) (clock : Z) (dflt : option Z) (bs : list body) :
  forall w,
    exists new,
      car_table (mysql (serve_all v (healthy clock dflt) (POST_car <$> bs) w))
      = car_table (mysql w) ++ new /\
      length new = length bs /\
      Forall (fun c => deleted_flag c = 0) new.
Proof.
  induction bs as [|b bs IH]; intros w.
  - exists []. cbn. by rewrite app_nil_r.
  - cbn. rewrite serve_post_car.
    destruct (IH (answered
      (Database
         (car_table (mysql w) ++
          [Car (auto_increment (mysql w)) (prop b "make") (prop b "model")
               (prop b "year") 0 (created v clock dflt)])
         (auto_increment (mysql w) + 1)) []
      (Json (post_success v (auto_increment (mysql w))
               (prop b "make") (prop b "model") (prop b "year"))) w))
      as (new & Ht & Hl & Hf).
    eexists (_ :: new). unfold serve_all in Ht. rewrite Ht. cbn.
    rewrite <- app_assoc. cbn. split; [reflexivity|]. split; [by rewrite Hl|].
    constructor; [reflexivity | exact Hf].
Qed.

(** ** C2: the listing is exactly the active rows *)

(** C2.  For every database state, GET /car answers 200 with the body
    [{ cars: rows }], where a row is listed exactly when it is in the
    table with [deleted_flag = 0]; the rows come in storage order and the
    table is left as it was.  After any sequence of creates the listing is
    again exactly the active rows: those that were active before,
    followed by one row per create. *)
Theorem get_car_lists_active_rows
    (clock : Z) (dflt : option Z) (bs : list body) (w : world) :
  let e := healthy clock dflt in
  let t := car_table (mysql w) in
  (exists rows,
     responses expressDatabase_js e GET_car w
     = [Response 200 (Json [("cars", JRows rows)])] /\
     (forall c, c ∈ rows <-> c ∈ t /\ deleted_flag c = 0) /\
     sublist rows t /\
     table_after expressDatabase_js e GET_car w = t) /\
  (let w' := serve_all expressDatabase_js e (POST_car <$> bs) w in
   let t' := car_table (mysql w') in
   exists rows new,
     responses expressDatabase_js e GET_car w'
     = [Response 200 (Json [("cars", JRows rows)])] /\
     (forall c, c ∈ rows <-> c ∈ t' /\ deleted_flag c = 0) /\
     t' = t ++ new /\ length new = length bs /\
     rows = filter (fun c => is_active c = true) t ++ new).
Proof.
  cbv zeta. split.
  - exists (filter (fun c => is_active c = true) (car_table (mysql w))).
    unfold responses, table_after. rewrite serve_get_car. cbn.
    split; [reflexivity|]. split; [intros c; apply elem_of_select_active|].
    split; [apply sublist_filter | reflexivity].
  - destruct (creates_append expressDatabase_js clock dflt bs w)
      as (new & Ht & Hl & Hf).
    exists (filter (fun c => is_active c = true)
              (car_table (mysql (serve_all expressDatabase_js
                 (healthy clock dflt) (POST_car <$> bs) w)))), new.
    unfold responses. rewrite serve_get_car. cbn.
    split; [reflexivity|]. split; [intros c; apply elem_of_select_active|].
    split; [exact Ht|]. split; [exact Hl|].
    rewrite Ht, filter_app. f_equal.
    clear Ht Hl. induction Hf as [|c new Hc Hf IH]; [reflexivity|].
    rewrite filter_cons_True by (unfold is_active; by rewrite Hc).
    by rewrite IH.
Qed.

(** ** C3: rows are never removed *)

Ltac keeps_ids :=
  first
    [ reflexivity
    | rewrite fmap_app; apply prefix_app_r; reflexivity
    | rewrite update_where_ids by (intros; reflexivity); reflexivity
    | rewrite update_reached_ids by (intros; reflexivity); reflexivity ].

(** No request shortens the table or changes a primary key: the ids before
    are a prefix of the ids after, whatever the route, the input and the
    failures. *)
Lemma ids_preserved (v : variant) (e : env) (rq : request) (w : world) :
  (car_id <$> car_table (mysql w)) `prefix_of` (car_id <$> table_after v e rq w).
Proof.
  destruct e as [[g|] [m|] [t|] [q|] clock dflt [reached [|]]], v, rq; run_app; keeps_ids.
Qed.

(** C3.  No operation removes a row: for every route, input and failure,
    the ids of the table before the request are a prefix, hence a subset,
    of the ids after it.  DELETE /car/:id rewrites nothing but the flag of
    the matching rows, which becomes 1: after it, on an id that some row
    carries, that row is still stored, with [deleted_flag = 1], and no row
    with that id is listed by GET /car. *)
Theorem rows_are_never_removed :
  (forall (v : variant) (e : env) (rq : request) (w : world),
     (car_id <$> car_table (mysql w)) `prefix_of` (car_id <$> table_after v e rq w) /\
     (car_id <$> car_table (mysql w)) ⊆ (car_id <$> table_after v e rq w)) /\
  (forall (v : variant) (clock : Z) (dflt : option Z) (id : string)
          (w : world) (c : car),
     c ∈ car_table (mysql w) ->
     id_matches (VStr id) c = true ->
     let e := healthy clock dflt in
     let w' := serve v e (DELETE_car id) w in
     (forall (n : nat) c0,
        car_table (mysql w) !! n = Some c0 ->
        car_table (mysql w') !! n
        = Some (if id_matches (VStr id) c0
                then Car (car_id c0) (make c0) (model c0) (year c0) 1
                         (date_created c0)
                else c0)) /\
     Car (car_id c) (make c) (model c) (year c) 1 (date_created c)
       ∈ car_table (mysql w') /\
     exists rows,
       responses v e GET_car w'
       = [Response 200 (Json [(listing_key v, JRows rows)])] /\
       Forall (fun r => car_id r <> car_id c) rows).
Proof.
  split.
  - intros v e rq w. pose proof (ids_preserved v e rq w) as Hp.
    split; [exact Hp|]. intros i Hi. destruct Hp as [k ->].
    apply elem_of_app. by left.
  - intros v clock dflt id w c Hc Hm. cbv zeta.
    rewrite serve_delete_car. unfold responses. rewrite serve_get_car. cbn.
    split; [|split].
    + intros n c0 Hn. rewrite update_where_lookup, Hn. reflexivity.
    + apply list_elem_of_lookup in Hc as [n Hn].
      apply list_elem_of_lookup. exists n.
      rewrite update_where_lookup, Hn. cbn. by rewrite Hm.
    + eexists. split; [reflexivity|].
      apply Forall_forall. intros r Hr.
      apply list_elem_of_filter in Hr as [Hact Hr].
      apply list_elem_of_lookup in Hr as [n Hn].
      rewrite update_where_lookup in Hn.
      destruct (car_table (mysql w) !! n) as [c0|] eqn:E0; [|discriminate].
      cbn in Hn. injection Hn as <-.
      unfold is_active in Hact. intros Hid.
      unfold id_matches in *.
      destruct (sql_int_of (VStr id)) as [k|]; [|discriminate].
      apply Z.eqb_eq in Hm.
      destruct (car_id c0 =? k) eqn:Ek.
      * cbn in Hact. discriminate.
      * cbn in Hid. apply Z.eqb_neq in Ek. congruence.
Qed.

Lemma rows_are_never_removed_witness :
  taurus ∈ car_table (mysql one_car) /\
  id_matches (VStr "1") taurus = true /\
  let w' := serve expressDatabase_js (healthy 0 None) (DELETE_car "1") one_car in
  Car 1 (VStr "Ford") (VStr "Taurus") (VNum 2024) 1 None ∈ car_table (mysql w') /\
  exists rows,
    responses expressDatabase_js (healthy 0 None) GET_car w'
    = [Response 200 (Json [("cars", JRows rows)])] /\
    Forall (fun r => car_id r <> 1) rows.
Proof.
  assert (Hin : taurus ∈ car_table (mysql one_car)) by (cbn; apply list_elem_of_here).
  assert (Hm : id_matches (VStr "1") taurus = true) by reflexivity.
  split; [exact Hin|]. split; [exact Hm|].
  destruct rows_are_never_removed as [_ H].
  exact (proj2 (H expressDatabase_js 0 None "1" one_car taurus Hin Hm)).
Defined.

(** ** C4: an id that matches no row *)

Lemma database_eta (d : database) : Database (car_table d) (auto_increment d) = d.
Proof. by destruct d. Qed.

(** C4.  When no row of the table matches the id, PUT /car and
    DELETE /car/:id run their UPDATE on zero rows, leave the database as
    it was, and answer 200 with [success: true] (PUT echoing id, make,
    model and year).  The answer is the one a matching id gets: it depends
    on the request alone, not on the table. *)
Theorem missing_id_reports_success
    (v : variant) (clock : Z) (dflt : option Z) (w : world) :
  let e := healthy clock dflt in
  let t := car_table (mysql w) in
  (forall b : body,
     Forall (fun c => id_matches (prop b "id") c = false) t ->
     execute e (UpdateCar (prop b "id") (prop b "make") (prop b "model")
                          (prop b "year")) (mysql w)
     = (mysql w, ResultSetHeader 0 0) /\
     mysql (serve v e (PUT_car b) w) = mysql w /\
     responses v e (PUT_car b) w
     = [Response 200
          (Json [("id", JVal (prop b "id")); ("make", JVal (prop b "make"));
                 ("model", JVal (prop b "model")); ("year", JVal (prop b "year"));
                 ("success", JVal (VBool true))])]) /\
  (forall id : string,
     Forall (fun c => id_matches (VStr id) c = false) t ->
     execute e (SoftDelete (VStr id)) (mysql w) = (mysql w, ResultSetHeader 0 0) /\
     mysql (serve v e (DELETE_car id) w) = mysql w /\
     responses v e (DELETE_car id) w
     = [Response 200 (Json [("success", JVal (VBool true))])]) /\
  (forall (b : body) (id : string) (w' : world),
     responses v e (PUT_car b) w' = responses v e (PUT_car b) w /\
     responses v e (DELETE_car id) w' = responses v e (DELETE_car id) w).
Proof.
  cbv zeta. split; [|split].
  - intros b Hno. rewrite Forall_forall in Hno.
    unfold responses. rewrite serve_put_car. cbn.
    rewrite update_where_none, affected_none, database_eta by exact Hno.
    done.
  - intros id Hno. rewrite Forall_forall in Hno.
    unfold responses. rewrite serve_delete_car. cbn.
    rewrite update_where_none, affected_none, database_eta by exact Hno.
    done.
  - intros b id w'. unfold responses.
    by rewrite !serve_put_car, !serve_delete_car.
Qed.

Lemma missing_id_reports_success_witness :
  Forall (fun c => id_matches (VStr "7") c = false) (car_table (mysql one_car)) /\
  mysql (serve expressDatabase_js (healthy 0 None) (DELETE_car "7") one_car)
  = mysql one_car /\
  responses expressDatabase_js (healthy 0 None) (DELETE_car "7") one_car
  = [Response 200 (Json [("success", JVal (VBool true))])].
Proof.
  assert (Hno : Forall (fun c => id_matches (VStr "7") c = false)
                       (car_table (mysql one_car))).
  { cbn. constructor; [reflexivity | constructor]. }
  split; [exact Hno|].
  exact (proj2 (proj1 (proj2
    (missing_id_reports_success expressDatabase_js 0 None one_car)) "7" Hno)).
Defined.

(** ** C6: the create handler *)

(** C6, counterexample.  The INSERT of src/expressDatabase.js names four columns and
    [date_created] is not one of them: on a table whose definition gives
    that column no default, the new row has no creation timestamp. *)
Lemma post_car_as_specified_fails :
  ~ post_car_as_specified expressDatabase_js 1000 None ford idle.
Proof.
  intros (i & Ht & _). unfold table_after in Ht.
  rewrite serve_post_car in Ht. cbn in Ht.
  congruence.
Qed.

(** C6, amended.  For every request body, without any validation,
    POST /car appends exactly one row to the table: the next generated id,
    the body's make, model and year, [deleted_flag = 0]; every other row
    is untouched.  The creation timestamp is written by the statement only
    in the listing of the notes ([NOW()]); src/expressDatabase.js does not
    name the column, which is left to the table's default.  The answer is
    200 with [{ id, make, model, year, success: true }] for that id, the
    listing of the notes adding a [message] property. *)
Theorem post_car_inserts_one_row
    (v : variant) (clock : Z) (dflt : option Z) (b : body) (w : world) :
  let e := healthy clock dflt in
  let i := auto_increment (mysql w) in
  let mk := prop b "make" in
  let md := prop b "model" in
  let yr := prop b "year" in
  table_after v e (POST_car b) w
  = car_table (mysql w) ++
    [Car i mk md yr 0
         match v with expressDatabase_js => dflt | part_000 => Some clock end] /\
  auto_increment (mysql (serve v e (POST_car b) w)) = i + 1 /\
  responses v e (POST_car b) w
  = [Response 200
       (Json match v with
             | expressDatabase_js =>
                 [("id", JVal (VNum i)); ("make", JVal mk); ("model", JVal md);
                  ("year", JVal yr); ("success", JVal (VBool true))]
             | part_000 =>
                 [("id", JVal (VNum i)); ("make", JVal mk); ("model", JVal md);
                  ("year", JVal yr);
                  ("message", JVal (VStr "Car successfully created"));
                  ("success", JVal (VBool true))]
             end)].
Proof.
  cbv zeta. unfold table_after, responses. rewrite serve_post_car.
  by destruct v.
Qed.

(** ** C7: the update touches three fields of the matching row *)

(** Whatever fails, PUT /car leaves the table that its UPDATE produces
    at the positions it reached (none, some or all of them), and never
    moves the key counter. *)
Lemma put_car_table (v : variant) (e : env) (b : body) (w : world) :
  (exists reached,
     table_after v e (PUT_car b) w
     = update_reached reached (id_matches (prop b "id"))
         (set_fields (prop b "make") (prop b "model") (prop b "year"))
         (car_table (mysql w))) /\
  auto_increment (mysql (serve v e (PUT_car b) w)) = auto_increment (mysql w).
Proof.
  destruct e as [[g|] [m|] [t|] [q|] clock dflt [reached [|]]], v; run_app;
    (split; [|reflexivity]);
    first [ eexists; reflexivity
          | exists (fun _ => true); apply update_where_everywhere
          | exists (fun _ => false); symmetry; apply update_reached_nowhere ].
Qed.

(** With unique keys an UPDATE by id rewrites one position of the table. *)
Lemma update_where_unique (p : value) (f : car -> car) (t : list car) (n : nat) (c : car) :
  NoDup (car_id <$> t) ->
  t !! n = Some c ->
  id_matches p c = true ->
  update_where (id_matches p) f t = <[n := f c]> t.
Proof.
  intros Hnd Hn Hm. apply list_eq. intros m.
  rewrite update_where_lookup.
  destruct (decide (m = n)) as [->|Hne].
  - rewrite list_lookup_insert_eq by (by eapply lookup_lt_Some).
    rewrite Hn. cbn. by rewrite Hm.
  - rewrite list_lookup_insert_ne by done.
    destruct (t !! m) as [c0|] eqn:E0; [|reflexivity]. cbn.
    destruct (id_matches p c0) eqn:Em; [|reflexivity].
    exfalso. apply Hne.
    unfold id_matches in Hm, Em.
    destruct (sql_int_of p) as [k|]; [|discriminate].
    apply Z.eqb_eq in Hm, Em.
    apply (NoDup_lookup (car_id <$> t) m n (car_id c)); [done| |].
    + rewrite list_lookup_fmap, E0. cbn. congruence.
    + by rewrite list_lookup_fmap, Hn.
Qed.

(** C7.  PUT /car keeps the length of the table and the key counter, and
    at every position keeps the row's id, [deleted_flag] and creation
    timestamp; a row that the id does not match is left exactly as it
    was, whatever fails.  When nothing fails, a row that the id matches
    gets the body's make, model and year and is otherwise unchanged; with
    unique keys that row is the only position of the table that changes. *)
Theorem put_car_changes_only_three_fields
    (v : variant) (e : env) (clock : Z) (dflt : option Z) (b : body) (w : world) :
  let t := car_table (mysql w) in
  let i := prop b "id" in
  let updated c :=
    Car (car_id c) (prop b "make") (prop b "model") (prop b "year")
        (deleted_flag c) (date_created c) in
  (length (table_after v e (PUT_car b) w) = length t /\
   auto_increment (mysql (serve v e (PUT_car b) w)) = auto_increment (mysql w) /\
   forall (n : nat) c,
     t !! n = Some c ->
     exists c',
       table_after v e (PUT_car b) w !! n = Some c' /\
       car_id c' = car_id c /\
       deleted_flag c' = deleted_flag c /\
       date_created c' = date_created c /\
       (id_matches i c = false -> c' = c)) /\
  (forall (n : nat) c,
     t !! n = Some c ->
     id_matches i c = true ->
     table_after v (healthy clock dflt) (PUT_car b) w !! n = Some (updated c) /\
     (NoDup (car_id <$> t) ->
      table_after v (healthy clock dflt) (PUT_car b) w = <[n := updated c]> t)).
Proof.
  cbv zeta. split.
  - destruct (put_car_table v e b w) as [[reached Ht] Ha]; rewrite Ht.
    split; [apply update_reached_length|]. split; [exact Ha|].
    intros n c Hn. rewrite update_reached_lookup, Hn. cbn.
    destruct (id_matches (prop b "id") c);
      [destruct (reached n)|rewrite andb_false_r]; cbn;
      eexists; (split; [reflexivity|]); cbn; repeat split; done.
  - intros n c Hn Hm. unfold table_after. rewrite serve_put_car. cbn.
    split.
    + rewrite update_where_lookup, Hn. cbn. by rewrite Hm.
    + intros Hnd.
      exact (update_where_unique _
               (set_fields (prop b "make") (prop b "model") (prop b "year"))
               _ n c Hnd Hn Hm).
Qed.

Lemma put_car_changes_only_three_fields_witness :
  car_table (mysql one_car) !! 0%nat = Some taurus /\
  id_matches (prop civic "id") taurus = true /\
  NoDup (car_id <$> car_table (mysql one_car)) /\
  table_after expressDatabase_js (healthy 0 None) (PUT_car civic) one_car
  = <[0%nat := Car 1 (prop civic "make") (prop civic "model") (prop civic "year")
                   0 None]> (car_table (mysql one_car)).
Proof.
  assert (Hn : car_table (mysql one_car) !! 0%nat = Some taurus) by reflexivity.
  assert (Hm : id_matches (prop civic "id") taurus = true) by (vm_compute; reflexivity).
  assert (Hnd : NoDup (car_id <$> car_table (mysql one_car))).
  { cbn. apply NoDup_singleton. }
  split; [exact Hn|]. split; [exact Hm|]. split; [exact Hnd|].
  exact (proj2 (proj2 (put_car_changes_only_three_fields
           expressDatabase_js (healthy 0 None) 0 None civic one_car)
           0%nat taurus Hn Hm) Hnd).
Defined.

(** ** C8: the two variants side by side *)

(** C8, counterexample.  On an empty table the program answers GET /car
    with [{ cars: [] }] and the listing of the notes with [{ car: [] }]. *)
Lemma get_car_answers_differ :
  responses expressDatabase_js (healthy 0 None) GET_car idle
  <> responses part_000 (healthy 0 None) GET_car idle.
Proof.
  unfold responses. rewrite !serve_get_car. cbn. congruence.
Qed.

Ltac agree := repeat split; rewrite ?fmap_app; reflexivity.

Ltac same_run :=
  repeat match goal with
         | |- context [match ?o with Some _ => _ | None => _ end] =>
             destruct o eqn:?; cbn
         | |- context [if ?c then _ else _] => destruct c eqn:?; cbn
         end.

(** C8, amended.  The update and the soft-delete handlers of the two
    variants send identical responses and have identical effects on the
    database, the pool and the request.  The listing handlers and the
    middlewares have identical effects and send the same status codes,
    but not the same bodies: the listing comes under [car] in the notes
    and under [cars] in the program, and the middleware's 500 body
    reads "car database" in the notes and "cars database" in the program.
    The create handlers differ in the creation timestamp of the new row
    and in the [message] property of the success body, and in nothing
    else. *)
Theorem variants_differ_in_wording_only (e : env) (w : world) :
  (forall b, same_answers (ExpressDatabase.put_car e b w) (Notes.put_car e b w)) /\
  (forall id,
     same_answers (ExpressDatabase.delete_car e id w) (Notes.delete_car e id w)) /\
  (let o1 := ExpressDatabase.get_car e w in
   let o2 := Notes.get_car e w in
   same_effects o1 o2 /\
   (res_sent (snd o1) = res_sent (snd o2) \/
    exists rows,
      res_sent (snd o1)
      = res_sent w ++ [Response (res_statusCode w) (Json [("cars", JRows rows)])] /\
      res_sent (snd o2)
      = res_sent w ++ [Response (res_statusCode w) (Json [("car", JRows rows)])])) /\
  (forall next,
     let o1 := ExpressDatabase.middleware e next w in
     let o2 := Notes.middleware e next w in
     same_effects o1 o2 /\
     (res_sent (snd o1) = res_sent (snd o2) \/
      exists before err,
        res_sent (snd o1)
        = before ++ [Response 500 (Json (error_body
            "Internal Server Error: Unable to connect to cars database" err))] /\
        res_sent (snd o2)
        = before ++ [Response 500 (Json (error_body
            "Internal Server Error: Unable to connect to car database" err))])) /\
  (forall b,
     let o1 := ExpressDatabase.post_car e b w in
     let o2 := Notes.post_car e b w in
     let mk := prop b "make" in
     let md := prop b "model" in
     let yr := prop b "year" in
     fst o1 = fst o2 /\
     databasePool (snd o1) = databasePool (snd o2) /\
     status <$> res_sent (snd o1) = status <$> res_sent (snd o2) /\
     (snd o1 = snd o2 \/
      exists i,
        mysql (snd o1)
        = Database (car_table (mysql w) ++ [Car i mk md yr 0 (date_created_default e)])
                   (i + 1) /\
        mysql (snd o2)
        = Database (car_table (mysql w) ++ [Car i mk md yr 0 (Some (now e))])
                   (i + 1) /\
        res_sent (snd o1)
        = res_sent w ++
          [Response (res_statusCode w)
             (Json (post_success expressDatabase_js i mk md yr))] /\
        res_sent (snd o2)
        = res_sent w ++
          [Response (res_statusCode w) (Json (post_success part_000 i mk md yr))])).
Proof.
  split; [|split; [|split; [|split]]].
  - intros b. unfold same_answers, same_effects. run_route. same_run.
    all: agree.
  - intros id. unfold same_answers, same_effects. run_route. same_run.
    all: agree.
  - cbv zeta. unfold same_effects. run_route. same_run.
    all: (split; [agree|]).
    all: first [left; reflexivity | right; eexists; split; reflexivity].
  - intros next. cbv zeta. unfold same_effects. run_middleware.
    destruct (getConnection_error e); cbn.
    { destruct (req_db w); cbn; (split; [agree|]); right; by eexists _, _. }
    destruct (sql_mode_error e); cbn.
    { split; [agree|]. right. by eexists _, _. }
    destruct (time_zone_error e); cbn.
    { split; [agree|]. right. by eexists _, _. }
    match goal with |- context [next ?x] => destruct (next x) as [[[]|err] w1] end;
      cbn; destruct (req_db w1) eqn:Hd; cbn; rewrite ?Hd; cbn;
      (split; [agree|]); first [by left | right; by eexists _, _].
  - intros b. cbv zeta. run_route. same_run.
    all: (split; [reflexivity|]); (split; [reflexivity|]); (split; [agree|]).
    all: first [left; reflexivity
               | right; eexists; agree ].
Qed.

(** ** C9: the create handler reads make, model and year only *)

(** Whatever fails, POST /car leaves the table as it was or appends one
    row, and that row is active. *)
Lemma post_car_appends_active (v : variant) (e : env) (b : body) (w : world) :
  exists new,
    table_after v e (POST_car b) w = car_table (mysql w) ++ new /\
    Forall (fun c => deleted_flag c = 0) new.
Proof.
  destruct e as [[g|] [m|] [t|] [q|] clock dflt [reached [|]]], v; run_app;
    first [ exists []; split; [by rewrite app_nil_r | constructor]
          | eexists [_]; split; [reflexivity | by repeat constructor] ].
Qed.

(** C9.  Two POST /car bodies that agree on make, model and year lead to
    the same run, whatever else they contain and whatever fails: the same
    completion, the same table with the same new row, the same response.
    The rows a create adds always have [deleted_flag = 0], so no body
    creates a soft-deleted car. *)
Theorem post_car_ignores_other_fields
    (v : variant) (e : env) (b1 b2 : body) (w : world) :
  b1 !! "make" = b2 !! "make" ->
  b1 !! "model" = b2 !! "model" ->
  b1 !! "year" = b2 !! "year" ->
  app v e (POST_car b1) w = app v e (POST_car b2) w /\
  exists new,
    table_after v e (POST_car b2) w = car_table (mysql w) ++ new /\
    Forall (fun c => deleted_flag c = 0) new.
Proof.
  intros Hmk Hmd Hyr. split; [|apply post_car_appends_active].
  assert (Hr : route v e (POST_car b1) = route v e (POST_car b2)).
  { destruct v; cbn [route ExpressDatabase.route Notes.route];
      unfold ExpressDatabase.post_car, Notes.post_car, prop;
      by rewrite Hmk, Hmd, Hyr. }
  unfold app, begins, continues. by rewrite Hr.
Qed.

Lemma post_car_ignores_other_fields_witness :
  ford !! "make" = ford_deleted !! "make" /\
  ford !! "model" = ford_deleted !! "model" /\
  ford !! "year" = ford_deleted !! "year" /\
  app part_000 (healthy 5 None) (POST_car ford) idle
  = app part_000 (healthy 5 None) (POST_car ford_deleted) idle.
Proof.
  assert (Hmk : ford !! "make" = ford_deleted !! "make") by reflexivity.
  assert (Hmd : ford !! "model" = ford_deleted !! "model") by reflexivity.
  assert (Hyr : ford !! "year" = ford_deleted !! "year") by reflexivity.
  split; [exact Hmk|]. split; [exact Hmd|]. split; [exact Hyr|].
  exact (proj1 (post_car_ignores_other_fields
                  part_000 (healthy 5 None) ford ford_deleted idle Hmk Hmd Hyr)).
Defined.

(** ** C10: the soft delete is idempotent *)

(** C10.  For every id and every database state, a second
    DELETE /car/:id right after the first leaves the database as the
    first left it, and is answered 200 with [{ success: true }] like the
    first.  The table after two deletes is the table after one also when
    the same external calls fail in both requests. *)
Theorem delete_car_idempotent
    (v : variant) (e : env) (clock clock' : Z) (dflt : option Z)
    (id : string) (w : world) :
  (let once := serve v (healthy clock dflt) (DELETE_car id) w in
   let twice := serve v (healthy clock' dflt) (DELETE_car id) once in
   mysql twice = mysql once /\
   res_sent once = [Response 200 (Json [("success", JVal (VBool true))])] /\
   res_sent twice = [Response 200 (Json [("success", JVal (VBool true))])]) /\
  table_after v e (DELETE_car id) (serve v e (DELETE_car id) w)
  = table_after v e (DELETE_car id) w.
Proof.
  split.
  - cbv zeta. rewrite !serve_delete_car. cbn. by rewrite soft_delete_twice.
  - destruct e as [[g|] [m|] [t|] [q|] c d [reached [|]]], v; run_app;
      rewrite ?soft_delete_twice,
        ?update_reached_twice by (intros; reflexivity);
      reflexivity.
Qed.


(** * Further properties of the routes and the middleware *)

(** ** The shapes a request can give the database *)

(** Whatever the route, the input and the failures, a request leaves the
    database as it was, or only takes a key, or appends one active row
    under the next key, or rewrites rows in place, at the positions it
    reached, with a function that keeps the id and never clears a
    non-zero [deleted_flag]. *)
Lemma database_after (v : variant) (e : env) (rq : request) (w : world) :
  let d := mysql w in
  mysql (serve v e rq w) = d \/
  mysql (serve v e rq w) = Database (car_table d) (auto_increment d + 1) \/
  (exists mk md yr created,
     mysql (serve v e rq w)
     = Database (car_table d ++ [Car (auto_increment d) mk md yr 0 created])
                (auto_increment d + 1)) \/
  (exists reached p f,
     (forall c, car_id (f c) = car_id c /\
                (deleted_flag c <> 0 -> deleted_flag (f c) <> 0)) /\
     mysql (serve v e rq w)
     = Database (update_reached reached (id_matches p) f (car_table d))
                (auto_increment d)).
Proof.
  cbv zeta.
  destruct e as [[g|] [m|] [t|] [q|] clock dflt [reached [|]]], v, rq; run_app;
    rewrite ?update_where_everywhere;
    first
      [ left; reflexivity
      | right; left; reflexivity
      | right; right; left; eexists _, _, _, _; reflexivity
      | right; right; right; eexists _, _, (set_fields _ _ _);
        split; [intros c; split; [reflexivity | cbn; auto] | reflexivity]
      | right; right; right; eexists _, _, set_deleted;
        split; [intros c; split; [reflexivity | cbn; discriminate] | reflexivity] ].
Qed.

(** ** X1: a route never throws *)

(** X1.  In every world, also one in which no connection was attached to
    the request, and whatever its query does, a route returns normally,
    leaves the pool and [req.db] alone and sends exactly one response,
    with the status the response had or with 500. *)
Theorem route_never_throws (v : variant) (e : env) (rq : request) (w : world) :
  fst (route v e rq w) = Returned tt /\
  databasePool (snd (route v e rq w)) = databasePool w /\
  req_db (snd (route v e rq w)) = req_db w /\
  exists r,
    res_sent (snd (route v e rq w)) = res_sent w ++ [r] /\
    (status r = res_statusCode w \/ status r = 500).
Proof.
  destruct v, rq; run_route;
    destruct (req_db w) eqn:Hd; cbn; rewrite ?Hd;
    destruct (query_error e); cbn; rewrite ?Hd;
    destruct (namedPlaceholders w); cbn; rewrite ?Hd;
    (split; [reflexivity|]); (split; [reflexivity|]); (split; [reflexivity|]);
    eexists; (split; [reflexivity|]); cbn; auto.
Qed.

(** ** X3: the GET routes are read-only *)

(** X3.  GET /car and GET / never change the table or the key counter,
    whichever external call fails or succeeds. *)
Theorem get_routes_are_read_only (v : variant) (e : env) (w : world) :
  mysql (serve v e GET_car w) = mysql w /\
  mysql (serve v e GET_root w) = mysql w.
Proof.
  split; destruct e as [[g|] [m|] [t|] [q|] clock dflt [reached [|]]], v; run_app; reflexivity.
Qed.

(** ** X4: the welcome route sits behind the connection middleware *)

(** X4.  GET / issues no query, yet it is answered with the welcome text
    and 200 only when a connection could be acquired and configured;
    otherwise the answer is the middleware's 500 with the rejection's
    message.  A rejection scheduled for route queries has no influence. *)
Theorem root_route_needs_a_connection (v : variant) (e : env) (w : world) :
  responses v e GET_root w
  = match connect_failure e with
    | Some err => [Response 500 (Json (error_body (connect_text v) err))]
    | None => [Response 200 (Text "Welcome to the Car Management API!")]
    end.
Proof.
  destruct e as [[g|] [m|] [t|] [q|] clock dflt [reached [|]]], v; run_app; reflexivity.
Qed.

(** ** X5: there is no way back from a soft delete *)

(** One request keeps every row at its position, with its id, and keeps a
    non-zero flag non-zero. *)
Lemma row_stays (v : variant) (e : env) (rq : request) (w : world) (n : nat) (c : car) :
  car_table (mysql w) !! n = Some c ->
  exists c',
    car_table (mysql (serve v e rq w)) !! n = Some c' /\
    car_id c' = car_id c /\
    (deleted_flag c <> 0 -> deleted_flag c' <> 0).
Proof.
  intros Hn.
  destruct (database_after v e rq w)
    as [-> | [-> | [(mk & md & yr & cr & ->) | (r & p & f & Hf & ->)]]]; cbn.
  - by exists c.
  - by exists c.
  - exists c. split; [|done]. apply lookup_app_l_Some. exact Hn.
  - rewrite update_reached_lookup, Hn. cbn.
    destruct (r n && id_matches p c); eexists; (split; [reflexivity|]).
    + apply Hf.
    + done.
Qed.

(** X5.  Through any sequence of requests to any routes, with any inputs
    and any failures, a row whose [deleted_flag] is not 0 stays at its
    position with its id and with a [deleted_flag] that is not 0: no
    request reactivates a car, and GET /car never lists that row again. *)
Theorem soft_deleted_stays_deleted
    (v : variant) (l : list (env * request)) (w : world) (n : nat) (c : car) :
  car_table (mysql w) !! n = Some c ->
  deleted_flag c <> 0 ->
  exists c',
    car_table (mysql (serve_each v l w)) !! n = Some c' /\
    car_id c' = car_id c /\
    deleted_flag c' <> 0 /\
    is_active c' = false.
Proof.
  revert w c. induction l as [|[e rq] l IH]; intros w c Hn Hc.
  - exists c. cbn. repeat split; try done. by apply Z.eqb_neq.
  - destruct (row_stays v e rq w n c Hn) as (c1 & Hn1 & Hid1 & Hflag1).
    destruct (IH (serve v e rq w) c1 Hn1 (Hflag1 Hc)) as (c' & Hn' & Hid' & Hc' & Ha').
    exists c'. cbn. repeat split; try done. congruence.
Qed.

Lemma soft_deleted_stays_deleted_witness :
  car_table (mysql one_scrapped) !! 0%nat = Some scrapped /\
  deleted_flag scrapped <> 0 /\
  exists c',
    car_table (mysql (serve_each expressDatabase_js
                        [(healthy 0 None, PUT_car civic_flagged);
                         (healthy 1 None, POST_car ford)] one_scrapped))
      !! 0%nat = Some c' /\
    car_id c' = car_id scrapped /\
    deleted_flag c' <> 0 /\
    is_active c' = false.
Proof.
  assert (Hn : car_table (mysql one_scrapped) !! 0%nat = Some scrapped) by reflexivity.
  assert (Hc : deleted_flag scrapped <> 0) by (cbn; lia).
  split; [exact Hn|]. split; [exact Hc|].
  exact (soft_deleted_stays_deleted expressDatabase_js _ one_scrapped 0 scrapped Hn Hc).
Defined.

(** ** X6: keys stay distinct and below the counter *)

Lemma well_keyed_step (v : variant) (e : env) (rq : request) (w : world) :
  well_keyed (mysql w) -> well_keyed (mysql (serve v e rq w)).
Proof.
  intros [Hnd Hlt].
  destruct (database_after v e rq w)
    as [-> | [-> | [(mk & md & yr & cr & ->) | (r & p & f & Hf & ->)]]];
    unfold well_keyed; cbn.
  - done.
  - split; [exact Hnd|].
    eapply Forall_impl; [exact Hlt|]. cbn. intros; lia.
  - split.
    + rewrite fmap_app. cbn. apply NoDup_app. split; [exact Hnd|]. split.
      * intros i Hi Hi'. apply list_elem_of_singleton in Hi'. subst i.
        apply list_elem_of_fmap in Hi as (c & Hc & Hin).
        rewrite Forall_forall in Hlt. specialize (Hlt c Hin). lia.
      * apply NoDup_singleton.
    + apply Forall_app. split.
      * eapply Forall_impl; [exact Hlt|]. cbn. intros; lia.
      * constructor; [cbn; lia | constructor].
  - split.
    + rewrite update_reached_ids; [exact Hnd | intros; apply Hf].
    + apply Forall_forall. intros c' Hc'.
      apply list_elem_of_lookup in Hc' as [n Hn].
      rewrite update_reached_lookup in Hn.
      destruct (car_table (mysql w) !! n) as [c|] eqn:E; [|discriminate].
      cbn in Hn. injection Hn as <-.
      rewrite Forall_forall in Hlt.
      assert (Hc : car_id c < auto_increment (mysql w)).
      { apply Hlt. by apply list_elem_of_lookup_2 with n. }
      destruct (r n && id_matches p c); [|exact Hc].
      destruct (Hf c) as [-> _]. exact Hc.
Qed.

(** X6.  If the keys of the table are pairwise distinct and below the
    AUTO_INCREMENT counter, they still are after any sequence of
    requests: no route writes the id column, and a create takes its key
    from the counter. *)
Theorem keys_stay_distinct (v : variant) (l : list (env * request)) (w : world) :
  well_keyed (mysql w) -> well_keyed (mysql (serve_each v l w)).
Proof.
  revert w. induction l as [|[e rq] l IH]; intros w Hw; [exact Hw|].
  cbn. apply IH. by apply well_keyed_step.
Qed.

Lemma keys_stay_distinct_witness :
  well_keyed (mysql one_car) /\
  well_keyed (mysql (serve_each part_000
                       [(healthy 0 None, POST_car ford);
                        (no_pool, POST_car ford);
                        (healthy 1 None, DELETE_car "1")] one_car)).
Proof.
  assert (H : well_keyed (mysql one_car)).
  { split; cbn.
    - apply NoDup_singleton.
    - constructor; [cbn; lia | constructor]. }
  split; [exact H|].
  exact (keys_stay_distinct part_000 _ one_car H).
Defined.

(** ** X7: the pool over a sequence of requests *)

Lemma pool_step (v : variant) (e : env) (rq : request) (w : world) :
  let p := databasePool w in
  let p' := databasePool (serve v e rq w) in
  in_use p' = in_use p /\
  (acquires p' = acquires p /\ releases p' = releases p \/
   acquires p' = S (acquires p) /\ releases p' = S (releases p)).
Proof.
  destruct e as [[g|] [m|] [t|] [q|] clock dflt [reached [|]]], v, rq; run_app; auto.
Qed.

(** X7.  After any sequence of requests, whatever failed on the way, the
    pool has as many connections checked out as before, [release] was
    called exactly as often as [getConnection] succeeded, and that is at
    most once per request. *)
Theorem pool_balanced_over_requests
    (v : variant) (l : list (env * request)) (w : world) :
  let p := databasePool w in
  let p' := databasePool (serve_each v l w) in
  in_use p' = in_use p /\
  (releases p' + acquires p = acquires p' + releases p)%nat /\
  (acquires p <= acquires p' <= acquires p + length l)%nat.
Proof.
  cbv zeta. revert w. induction l as [|[e rq] l IH]; intros w.
  - cbn. lia.
  - cbn [serve_each foldl fst snd length].
    destruct (IH (serve v e rq w)) as (Hin & Hbal & Hacq).
    unfold serve_each in Hin, Hbal, Hacq.
    destruct (pool_step v e rq w) as (Hin1 & Hstep). cbv zeta in Hin1, Hstep.
    lia.
Qed.

(** ** X8: the update handler reads id, make, model and year only *)

(** X8.  Two PUT /car bodies that agree on id, make, model and year lead
    to the same run, whatever else they contain and whatever fails; in
    particular a [deleted_flag] sent by the client is not read. *)
Theorem put_car_ignores_other_fields
    (v : variant) (e : env) (b1 b2 : body) (w : world) :
  b1 !! "id" = b2 !! "id" ->
  b1 !! "make" = b2 !! "make" ->
  b1 !! "model" = b2 !! "model" ->
  b1 !! "year" = b2 !! "year" ->
  app v e (PUT_car b1) w = app v e (PUT_car b2) w.
Proof.
  intros Hid Hmk Hmd Hyr.
  assert (Hr : route v e (PUT_car b1) = route v e (PUT_car b2)).
  { destruct v; cbn [route ExpressDatabase.route Notes.route];
      unfold ExpressDatabase.put_car, Notes.put_car, prop;
      by rewrite Hid, Hmk, Hmd, Hyr. }
  unfold app, begins, continues. by rewrite Hr.
Qed.

Lemma put_car_ignores_other_fields_witness :
  civic !! "id" = civic_flagged !! "id" /\
  civic !! "make" = civic_flagged !! "make" /\
  civic !! "model" = civic_flagged !! "model" /\
  civic !! "year" = civic_flagged !! "year" /\
  app expressDatabase_js (healthy 0 None) (PUT_car civic) one_car
  = app expressDatabase_js (healthy 0 None) (PUT_car civic_flagged) one_car.
Proof.
  assert (Hid : civic !! "id" = civic_flagged !! "id") by reflexivity.
  assert (Hmk : civic !! "make" = civic_flagged !! "make") by reflexivity.
  assert (Hmd : civic !! "model" = civic_flagged !! "model") by reflexivity.
  assert (Hyr : civic !! "year" = civic_flagged !! "year") by reflexivity.
  split; [exact Hid|]. split; [exact Hmk|]. split; [exact Hmd|].
  split; [exact Hyr|].
  exact (put_car_ignores_other_fields
           expressDatabase_js (healthy 0 None) civic civic_flagged one_car
           Hid Hmk Hmd Hyr).
Defined.

(** ** X9: update and soft delete commute *)

(** Two in-place rewrites commute when neither changes what the other's
    WHERE clause tests and the two rewrites commute on every row. *)
Lemma update_where_comm (q1 q2 : car -> bool) (f1 f2 : car -> car) (t : list car) :
  (forall c, q1 (f2 c) = q1 c) ->
  (forall c, q2 (f1 c) = q2 c) ->
  (forall c, f1 (f2 c) = f2 (f1 c)) ->
  update_where q1 f1 (update_where q2 f2 t)
  = update_where q2 f2 (update_where q1 f1 t).
Proof.
  intros H1 H2 Hc. unfold update_where. rewrite <- !list_fmap_compose.
  apply list_fmap_ext. intros _ c _. cbn.
  destruct (q1 c) eqn:E1, (q2 c) eqn:E2;
    rewrite ?H1, ?H2, ?E1, ?E2; (reflexivity || apply Hc).
Qed.

(** X9.  On every database, an update followed by a soft delete leaves
    the same table and key counter as the soft delete followed by the
    update, for any body and any id (the same id or another): the update
    does not touch the flag and the soft delete does not touch the three
    fields, so a soft-deleted car can still be edited and stays deleted. *)
Theorem put_and_delete_commute
    (v : variant) (c1 c2 c3 c4 : Z) (dflt : option Z)
    (b : body) (id : string) (w : world) :
  mysql (serve v (healthy c2 dflt) (DELETE_car id)
           (serve v (healthy c1 dflt) (PUT_car b) w))
  = mysql (serve v (healthy c4 dflt) (PUT_car b)
             (serve v (healthy c3 dflt) (DELETE_car id) w)).
Proof.
  rewrite !serve_put_car, !serve_delete_car. cbn. f_equal.
  symmetry. apply update_where_comm; reflexivity.
Qed.

(** ** X10: the update is idempotent *)



(** ** X11: a create is not idempotent *)

(** X11.  Sending the same POST /car twice creates two rows: the table
    grows by two rows that carry the body's make, model and year, are
    both active and have different ids, and each answer reports the id
    of its own row. *)
Theorem post_car_twice_creates_two_rows
    (v : variant) (clock clock' : Z) (dflt : option Z) (b : body) (w : world) :
  let once := serve v (healthy clock dflt) (POST_car b) w in
  let twice := serve v (healthy clock' dflt) (POST_car b) once in
  exists r1 r2,
    car_table (mysql twice) = car_table (mysql w) ++ [r1; r2] /\
    car_id r1 <> car_id r2 /\
    Forall (fun r => make r = prop b "make" /\ model r = prop b "model" /\
                     year r = prop b "year" /\ deleted_flag r = 0) [r1; r2] /\
    (exists rest, res_sent once
                  = [Response 200 (Json (("id", JVal (VNum (car_id r1))) :: rest))]) /\
    (exists rest, res_sent twice
                  = [Response 200 (Json (("id", JVal (VNum (car_id r2))) :: rest))]).
Proof.
  cbv zeta. rewrite !serve_post_car. cbn.
  eexists _, _. split; [by rewrite <- app_assoc|].
  split; [cbn; lia|].
  split; [by repeat constructor|].
  split; destruct v; eexists; reflexivity.
Qed.

(** ** X12: a create shows up in the next listing *)

(** X12.  After a successful POST /car, GET /car lists exactly the cars
    it listed before and the new car: the id that the create answered,
    the body's make, model and year, and [deleted_flag = 0].  Nothing is
    said about the order of the listing. *)
Theorem created_car_is_listed
    (v : variant) (clock clock' : Z) (dflt : option Z) (b : body) (w : world) :
  let i := auto_increment (mysql w) in
  let w' := serve v (healthy clock dflt) (POST_car b) w in
  exists listed_before listed_after created_at rest,
    responses v (healthy clock' dflt) GET_car w
    = [Response 200 (Json [(listing_key v, JRows listed_before)])] /\
    res_sent w' = [Response 200 (Json (("id", JVal (VNum i)) :: rest))] /\
    responses v (healthy clock' dflt) GET_car w'
    = [Response 200 (Json [(listing_key v, JRows listed_after)])] /\
    forall c,
      c ∈ listed_after <->
      c ∈ listed_before \/
      c = Car i (prop b "make") (prop b "model") (prop b "year") 0 created_at.
Proof.
  cbv zeta. unfold responses. rewrite !serve_get_car, serve_post_car. cbn.
  rewrite filter_app. cbn.
  destruct v; eexists _, _, _, _;
    (split; [reflexivity|]); (split; [reflexivity|]); (split; [reflexivity|]);
    intros c; rewrite elem_of_app;
    (destruct (decide (true = true)) as [_|?]; [|done]);
    rewrite list_elem_of_singleton; reflexivity.
Qed.

(** ** X13: requests do not depend on how the connection was left *)

(** X13.  The middleware switches named placeholders on before anything
    is queried, so the responses, the database and the pool after a
    request are the same whether the pooled connection arrives with the
    option on or off. *)
Theorem prior_placeholder_setting_is_irrelevant
    (v : variant) (e : env) (rq : request) (flag : bool) (w : world) :
  let w' := set_namedPlaceholders flag w in
  responses v e rq w' = responses v e rq w /\
  mysql (serve v e rq w') = mysql (serve v e rq w) /\
  databasePool (serve v e rq w') = databasePool (serve v e rq w).
Proof.
  destruct e as [[g|] [m|] [t|] [q|] clock dflt [reached [|]]], v, rq; run_app;
    repeat split; reflexivity.
Qed.

(** ** X14: the program logs the error of every failed request *)

(** X14.  In src/expressDatabase.js, when an external call of a request
    rejects, the last line the request writes to the console is a label
    followed by that very error. *)
Theorem failures_are_logged
    (e : env) (rq : request) (w : world) (err : js_error) :
  failure_cause e rq = Some err ->
  exists before label,
    console (serve expressDatabase_js e rq w)
    = before ++ [[LStr label; LErr err]].
Proof.
  intros H.
  destruct e as [[g|] [m|] [t|] [q|] clock dflt [reached [|]]], rq;
    cbn in H; try discriminate H; injection H as <-; run_app;
    eexists _, _; reflexivity.
Qed.

Lemma failures_are_logged_witness :
  failure_cause no_pool GET_car = Some (Error "Too many connections") /\
  exists before label,
    console (serve expressDatabase_js no_pool GET_car idle)
    = before ++ [[LStr label; LErr (Error "Too many connections")]].
Proof.
  assert (H : failure_cause no_pool GET_car
              = Some (Error "Too many connections")) by reflexivity.
  split; [exact H|].
  exact (failures_are_logged no_pool GET_car idle _ H).
Defined.

(** ** X15: a failed connection never reaches the route *)

(** X15.  When the acquisition or one of the two session statements
    rejects, the middleware does not call the next stage: its outcome is
    the same for every next stage, in every world. *)
Theorem connect_failure_skips_next
    (v : variant) (e : env) (next next' : M unit) (w : world) (err : js_error) :
  connect_failure e = Some err ->
  middleware v e next w = middleware v e next' w.
Proof.
  intros H.
  destruct e as [[g|] [m|] [t|] q clock dflt lb], v;
    cbn in H; try discriminate H; run_middleware; reflexivity.
Qed.

Lemma connect_failure_skips_next_witness :
  connect_failure no_pool = Some (Error "Too many connections") /\
  middleware expressDatabase_js no_pool boom idle
  = middleware expressDatabase_js no_pool
      (ExpressDatabase.post_car no_pool ford) idle.
Proof.
  assert (H : connect_failure no_pool = Some (Error "Too many connections"))
    by reflexivity.
  split; [exact H|].
  exact (connect_failure_skips_next expressDatabase_js no_pool _ _ idle _ H).
Defined.

(** ** X16: the success line of the update *)

(** X16.  src/expressDatabase.js writes the console line
    "Car updated successfully:" for a PUT /car exactly when no external
    call of the request rejected; it does so also when the id matched no
    row. *)
Theorem update_success_line
    (e : env) (b : body) (w : world) :
  let line :=
    [LStr "Car updated successfully:";
     LObj [("id", JVal (prop b "id")); ("make", JVal (prop b "make"));
           ("model", JVal (prop b "model")); ("year", JVal (prop b "year"))]] in
  match failure_cause e (PUT_car b) with
  | None => console (serve expressDatabase_js e (PUT_car b) w) = console w ++ [line]
  | Some err =>
      exists label,
        console (serve expressDatabase_js e (PUT_car b) w)
        = console w ++ [[LStr label; LErr err]]
  end.
Proof.
  destruct e as [[g|] [m|] [t|] [q|] clock dflt [reached [|]]]; run_app;
    first [reflexivity | eexists; reflexivity].
Qed.
